(** * AdGroupForm: the form lifecycle of the ad-group editor

    A shallow embedding of
    [front_end/src/components/AdGroups/AdGroupForm/AdGroupForm.js]:
    the React component's handlers are functions from the component's props
    (and the DOM values they read) to the list of effects they perform, in
    program order, together with the way they finish (normally or by a
    thrown error). *)

From Stdlib Require Import String Ascii List ZArith Bool Lia DecimalString DecimalZ FinFun.
Import ListNotations.

Local Open Scope list_scope.
Local Open Scope string_scope.

Set Warnings "-register-all".

(** ** JavaScript data

    Everything the component reads is JSON-like data: the API response, the
    entity details held in the store, the object built by [serializeJSON].
    Numbers are the integers a JavaScript number holds exactly (entity
    ids, below 2^53 in magnitude), which print in plain decimal;
    [undefined] is not a JSON value and is the [None] of [value]. *)

Inductive json : Type :=
| JNull
| JBool (b : bool)
| JNum (n : Z)
| JStr (s : string)
| JArr (items : list json)
| JObj (fields : list (string * json)).

Definition value : Type := option json.

Definition MAX_SAFE_INTEGER : Z := 9007199254740991.

Definition undefined : value := None.

Definition object : Type := list (string * json).

(** [o.k] on an object: the first binding of the key, [undefined] when the
    key is absent. *)
Fixpoint lookup (k : string) (o : object) : value :=
  match o with
  | [] => undefined
  | (k', v) :: rest => if String.eqb k k' then Some v else lookup k rest
  end.

(** [o.k = v]: an existing key keeps its position, a new key goes last. *)
Fixpoint assign (k : string) (v : json) (o : object) : object :=
  match o with
  | [] => [(k, v)]
  | (k', v') :: rest =>
      if String.eqb k k' then (k', v) :: rest else (k', v') :: assign k v rest
  end.

(** [v === undefined]. *)
Definition is_undefined (v : value) : bool :=
  match v with
  | None => true
  | Some _ => false
  end.

(** [v === lit] for a primitive literal [lit]; an array or an object is never
    strictly equal to a primitive. *)
Definition strict_eq (v : value) (lit : json) : bool :=
  match v, lit with
  | Some JNull, JNull => true
  | Some (JBool a), JBool b => Bool.eqb a b
  | Some (JNum a), JNum b => Z.eqb a b
  | Some (JStr a), JStr b => String.eqb a b
  | _, _ => false
  end.

(** [v === w] for two values of which at least one is a primitive or
    [undefined] (entity ids are numbers or strings). *)
Definition strict_eq_values (v w : value) : bool :=
  match w with
  | None => is_undefined v
  | Some lit => strict_eq v lit
  end.

(** Truthiness, as tested by [if (v)]. *)
Definition truthy (v : value) : bool :=
  match v with
  | None => false
  | Some JNull => false
  | Some (JBool b) => b
  | Some (JNum n) => negb (Z.eqb n 0)
  | Some (JStr s) => negb (String.eqb s "")
  | Some (JArr _) => true
  | Some (JObj _) => true
  end.

Definition string_of_Z (n : Z) : string :=
  NilEmpty.string_of_int (Z.to_int n).

Fixpoint join (sep : string) (l : list string) : string :=
  match l with
  | [] => ""
  | [s] => s
  | s :: rest => s ++ sep ++ join sep rest
  end.

(** The string a JSON value becomes when it is added to a string. Inside an
    array, [null] elements print as the empty string. A number prints as
    JavaScript prints it for the integers up to [MAX_SAFE_INTEGER] in
    magnitude, in plain decimal; statements about printed numbers carry
    that bound. *)
Fixpoint json_to_string (j : json) : string :=
  match j with
  | JNull => "null"
  | JBool true => "true"
  | JBool false => "false"
  | JNum n => string_of_Z n
  | JStr s => s
  | JArr items =>
      join "," (map (fun x => match x with
                              | JNull => ""
                              | _ => json_to_string x
                              end) items)
  | JObj _ => "[object Object]"
  end.

Definition to_string (v : value) : string :=
  match v with
  | None => "undefined"
  | Some j => json_to_string j
  end.

(** ** JSON.stringify *)

Definition dquote : string := String (ascii_of_nat 34) "".
Definition backslash : string := String (ascii_of_nat 92) "".

Definition hex_digit (n : nat) : string :=
  match n with
  | 0 => "0" | 1 => "1" | 2 => "2" | 3 => "3" | 4 => "4" | 5 => "5"
  | 6 => "6" | 7 => "7" | 8 => "8" | 9 => "9" | 10 => "a" | 11 => "b"
  | 12 => "c" | 13 => "d" | 14 => "e" | _ => "f"
  end%nat.

Definition escape_char (c : ascii) : string :=
  let n := nat_of_ascii c in
  if Nat.eqb n 34 then backslash ++ dquote
  else if Nat.eqb n 92 then backslash ++ backslash
  else if Nat.eqb n 8 then backslash ++ "b"
  else if Nat.eqb n 12 then backslash ++ "f"
  else if Nat.eqb n 10 then backslash ++ "n"
  else if Nat.eqb n 13 then backslash ++ "r"
  else if Nat.eqb n 9 then backslash ++ "t"
  else if Nat.ltb n 32
       then backslash ++ "u00" ++ hex_digit (n / 16) ++ hex_digit (n mod 16)
  else String c "".

Fixpoint escape (s : string) : string :=
  match s with
  | EmptyString => ""
  | String c rest => escape_char c ++ escape rest
  end.

Definition quote (s : string) : string := dquote ++ escape s ++ dquote.

Fixpoint JSON_stringify (j : json) : string :=
  match j with
  | JNull => "null"
  | JBool true => "true"
  | JBool false => "false"
  | JNum n => string_of_Z n
  | JStr s => quote s
  | JArr items => "[" ++ join "," (map JSON_stringify items) ++ "]"
  | JObj fields =>
      "{" ++ join "," (map (fun kv => quote (fst kv) ++ ":" ++ JSON_stringify (snd kv))
                           fields) ++ "}"
  end.

(** ** Effects

    A handler performs its effects in program order and either returns or
    stops at a thrown exception; the effects performed before the throw
    stay performed. The effects are what the component itself sends out:
    dispatched actions, calls on the event, the window and the history, the
    attribute it sets through jQuery, and the bindings it makes on the page.
    What it reads from the page (parsley's verdict, the serialized form, a
    checkbox) is an input, held in [Dom] below. *)

Inductive exn : Type :=
| TypeError
| ReferenceError.

(** The two functions the component binds to the [change] event of the
    select2 widgets. Both read [function(){ context.handleChange(); }]; they
    differ in the scope they close over. *)
Inductive callback : Type :=
| MountCallback      (* bound in componentDidMount, after [const context = this] *)
| UpdateCallback.    (* bound in componentDidUpdate, where no [context] is declared *)

Inductive outcome (A : Type) : Type :=
| Returned (a : A)
| Thrown (e : exn).

Arguments Returned {A} a.
Arguments Thrown {A} e.

(** The action creators imported from [actions/App/AppActions] and
    [actions/AdGroups/AdGroupActions], as the values passed to [dispatch]. *)
Inductive action : Type :=
| displayMessage (type : string) (body : value)
| shownMessage
| formChanged
| formSaved
| createAdGroup (data : string)
| updateAdGroup (adGroupId : value) (data : string)
| adGroupSetDetailsVar (variable : string) (val : json).

Inductive effect : Type :=
| Dispatch (a : action)                         (* dispatch(a) *)
| PreventDefault                                (* e.preventDefault() *)
| SetAttr (selector attr : string) (v : json)   (* $(selector).attr(attr, v) *)
| ScrollTo (x y : Z)                            (* window.scrollTo(x, y) *)
| PushState (state : value) (path : string)     (* history.pushState(state, path) *)
| ThenHandleResponse                            (* .then(response => handleResponse(response)) *)
| BindFormValidators                            (* bindFormValidators() *)
| Select2OnChange (selector : string) (cb : callback).
                                                (* $(selector).select2().on('change', cb) *)

Definition M (A : Type) : Type := (list effect * outcome A)%type.

Definition ret {A : Type} (a : A) : M A := ([], Returned a).

Definition bind {A B : Type} (m : M A) (f : A -> M B) : M B :=
  match m with
  | (t, Returned a) => let (t', r) := f a in ((t ++ t')%list, r)
  | (t, Thrown e) => (t, Thrown e)
  end.

Definition emit (e : effect) : M unit := ([e], Returned tt).

Definition throw {A : Type} (e : exn) : M A := ([], Thrown e).

Definition dispatch (a : action) : M unit := emit (Dispatch a).

Notation "x <- m ;; k" := (bind m (fun x => k))
  (at level 61, m at next level, right associativity).
Notation "m ;; k" := (bind m (fun _ => k))
  (at level 61, right associativity).

Definition trace {A : Type} (m : M A) : list effect := fst m.

Definition result {A : Type} (m : M A) : outcome A := snd m.

(** [v.k]: reading a property of [undefined] or [null] throws; the keys the
    component reads ([result], [message], [id]) are not properties of
    numbers, strings, booleans or arrays. *)
Definition get_prop (v : value) (k : string) : M value :=
  match v with
  | None => throw TypeError
  | Some JNull => throw TypeError
  | Some (JObj fields) => ret (lookup k fields)
  | Some _ => ret undefined
  end.

(** ** Props and the DOM *)

Module App.
Record state : Type := {
  formChanged : value;
}.
End App.

Module AdGroup.
Record state : Type := {
  details : object;
  isSaving : value;
}.
End AdGroup.

Module Campaign.
Record state : Type := {
  details : object;
}.
End Campaign.

Record Props : Type := {
  props_App : App.state;
  props_AdGroup : AdGroup.state;
  props_Campaign : Campaign.state;
  editMode : bool;                 (* PropTypes.bool.isRequired *)
  params_campaignId : value;
}.

(** What the handlers read from the page: the verdict of parsley's
    [form.validate()], the object [$('#AdGroupForm').serializeJSON()], and
    the [checked] property of the element a jQuery selector finds. *)
Record Dom : Type := {
  validate : bool;
  serializeJSON : object;
  prop_checked : string -> value;
}.

Record Event : Type := {
  target_id : string;
}.

(** ** The handlers *)

Definition componentWillMount (p : Props) : M unit :=
  if is_undefined (lookup "type" (AdGroup.details (props_AdGroup p)))
  then dispatch (adGroupSetDetailsVar "type" (JStr "suggested"))
  else ret tt.

Definition handleChange (p : Props) : M unit :=
  if negb (strict_eq (App.formChanged (props_App p)) (JBool true))
  then dispatch formChanged
  else ret tt.

Definition componentDidMount (p : Props) : M unit :=
  emit BindFormValidators ;;
  emit (Select2OnChange ".js-select" MountCallback).

Definition componentDidUpdate (prevProps p : Props) : M unit :=
  if negb (strict_eq_values
             (lookup "id" (AdGroup.details (props_AdGroup prevProps)))
             (lookup "id" (AdGroup.details (props_AdGroup p))))
     || negb (strict_eq_values
                (lookup "id" (Campaign.details (props_Campaign prevProps)))
                (lookup "id" (Campaign.details (props_Campaign p))))
  then emit BindFormValidators ;;
       emit (Select2OnChange ".js-select" UpdateCallback)
  else ret tt.

(** jQuery calling one of the bound functions for a [change] of a select2
    widget. In the function bound by [componentDidMount], [context] is the
    component; in the one bound by [componentDidUpdate], [context] is an
    identifier no enclosing scope declares, and evaluating it throws before
    [handleChange] is reached. *)
Definition select2_change (p : Props) (cb : callback) : M unit :=
  match cb with
  | MountCallback => handleChange p
  | UpdateCallback => throw ReferenceError
  end.

Definition handleSwitch (p : Props) (d : Dom) (e : Event) : M unit :=
  handleChange p ;;
  let val :=
    if strict_eq (prop_checked d ("#" ++ target_id e)) (JBool true)
    then "directory" else "suggested" in
  dispatch (adGroupSetDetailsVar "type" (JStr val)).

Definition handleCreate (p : Props) (data : string) : M unit :=
  dispatch (createAdGroup data) ;;
  emit ThenHandleResponse.

Definition handleUpdate (p : Props) (data : string) : M unit :=
  dispatch (updateAdGroup (lookup "id" (AdGroup.details (props_AdGroup p))) data) ;;
  emit ThenHandleResponse.

(** Lines 230-235 of [handleFormSubmit]: the [type] of the form data is
    overwritten from the presence of the key alone. *)
Definition force_type (formData : object) : object :=
  if is_undefined (lookup "type" formData)
  then assign "type" (JStr "suggested") formData
  else assign "type" (JStr "directory") formData.

Definition handleFormSubmit (p : Props) (d : Dom) : M unit :=
  emit PreventDefault ;;
  emit (SetAttr "input.select2-search__field" "data-parsley-excluded" (JBool true)) ;;
  if validate d then
    let formData := force_type (serializeJSON d) in
    let data := JSON_stringify (JObj formData) in
    if editMode p then handleUpdate p data else handleCreate p data
  else
    dispatch (displayMessage "error" (Some (JStr "Validation Errors"))) ;;
    dispatch shownMessage ;;
    emit (ScrollTo 0 0).

Definition handleResponse (p : Props) (response : value) : M unit :=
  res <- get_prop response "result" ;;
  if is_undefined res then
    message <- get_prop response "message" ;;
    dispatch (displayMessage "error" message) ;;
    dispatch shownMessage ;;
    emit (ScrollTo 0 0)
  else
    (if editMode p
     then dispatch (displayMessage "success" (Some (JStr "Ad Group Updated Successfully")))
     else dispatch (displayMessage "success" (Some (JStr "Ad Group Created Successfully")))) ;;
    dispatch formSaved ;;
    id <- get_prop res "id" ;;
    emit (PushState (Some JNull) ("/adgroups/" ++ to_string id)).

(** ** render

    The decisions [render] takes from the props: which controls exist,
    which are hidden or disabled, and the defaults they start from. [render]
    also writes [campaign_id] into the details object it was given when the
    object has none; the details after that write are returned with the view.
    (When [params.campaignId] is itself [undefined] the write stores
    [undefined], which every later read cannot tell from the absent key.) *)

Record BudgetView : Type := {
  budget_className : string;
  frequency_cap_daily_disabled : bool;
  frequency_cap_total_disabled : bool;
}.

Record View : Type := {
  spinner : bool;                  (* the loader image inside the Save button *)
  form_key : string;
  id_input : option value;         (* hidden input [id], edit mode only *)
  campaign_id_input : value;
  paused_checkbox : bool;          (* a checkbox in edit mode, a hidden [false] otherwise *)
  explanation_shown : bool;
  type_defaultChecked : bool;
  audience_header_shown : bool;
  channel_and_locale_shown : bool;
  categories_className : string;
  categories_disabled : bool;
  budget : option BudgetView;      (* the Budget section, create mode only *)
}.

Definition render_data (p : Props) : object :=
  let data := AdGroup.details (props_AdGroup p) in
  if is_undefined (lookup "campaign_id" data)
  then match params_campaignId p with
       | Some c => assign "campaign_id" c data
       | None => data
       end
  else data.

Definition render (p : Props) : object * View :=
  let data := render_data p in
  let type := lookup "type" data in
  let directory := strict_eq type (JStr "directory") in
  (data,
   {| spinner := truthy (AdGroup.isSaving (props_AdGroup p));
      form_key := "adgroupform-" ++
                  (if editMode p
                   then "edit-" ++ to_string (lookup "id" data)
                   else "create-" ++ to_string (lookup "campaign_id" data));
      id_input := if editMode p then Some (lookup "id" data) else None;
      campaign_id_input := lookup "campaign_id" data;
      paused_checkbox := editMode p;
      explanation_shown := strict_eq type (JStr "suggested");
      type_defaultChecked :=
        if strict_eq type (JStr "suggested") || is_undefined type then false else true;
      audience_header_shown := strict_eq type (JStr "suggested") || negb (editMode p);
      channel_and_locale_shown := negb (editMode p);
      categories_className := if directory then "hide" else "";
      categories_disabled := directory;
      budget :=
        if negb (editMode p)
        then Some {| budget_className := if directory then "hide" else "";
                     frequency_cap_daily_disabled := directory;
                     frequency_cap_total_disabled := directory |}
        else None |}).

(** ** The store

    The component is connected to a central store: every [dispatch] goes
    through the store's reducers, and the next event handler sees the props
    the store then holds. *)

Record Notification : Type := {
  severity : string;
  text : value;
  shown : bool;
}.

Record Store : Type := {
  store_formChanged : value;
  store_message : option Notification;
  store_details : object;
  store_isSaving : value;
}.

(** Modelled from the spec: the reducers behind [actions/App/AppActions] and
    [actions/AdGroups/AdGroupActions] are not among the sources. The spec's
    data model gives the dirty flag (set on any field change, cleared on
    successful save), the notification (created with a severity and a text,
    then marked shown) and the entity details as a mapping from field name to
    value, written one field at a time by the form; its submit controller
    gives the saving flag that is up while a submission is in flight. *)
Definition reduce (s : Store) (a : action) : Store :=
  match a with
  | displayMessage type body =>
      {| store_formChanged := store_formChanged s;
         store_message := Some {| severity := type; text := body; shown := false |};
         store_details := store_details s;
         store_isSaving := store_isSaving s |}
  | shownMessage =>
      {| store_formChanged := store_formChanged s;
         store_message :=
           match store_message s with
           | Some n => Some {| severity := severity n; text := text n; shown := true |}
           | None => None
           end;
         store_details := store_details s;
         store_isSaving := store_isSaving s |}
  | formChanged =>
      {| store_formChanged := Some (JBool true);
         store_message := store_message s;
         store_details := store_details s;
         store_isSaving := store_isSaving s |}
  | formSaved =>
      {| store_formChanged := Some (JBool false);
         store_message := store_message s;
         store_details := store_details s;
         store_isSaving := store_isSaving s |}
  | createAdGroup _ | updateAdGroup _ _ =>
      {| store_formChanged := store_formChanged s;
         store_message := store_message s;
         store_details := store_details s;
         store_isSaving := Some (JBool true) |}
  | adGroupSetDetailsVar variable val =>
      {| store_formChanged := store_formChanged s;
         store_message := store_message s;
         store_details := assign variable val (store_details s);
         store_isSaving := store_isSaving s |}
  end.

(** Modelled from the spec: the continuation of a network call runs once its
    response has arrived, which ends the submission in flight. *)
Definition response_arrived (s : Store) : Store :=
  {| store_formChanged := store_formChanged s;
     store_message := store_message s;
     store_details := store_details s;
     store_isSaving := Some (JBool false) |}.

Fixpoint dispatched (t : list effect) : list action :=
  match t with
  | [] => []
  | Dispatch a :: rest => a :: dispatched rest
  | _ :: rest => dispatched rest
  end.

Definition reduce_all (s : Store) (t : list effect) : Store :=
  fold_left reduce (dispatched t) s.

(** ** The mounted component as a machine

    One step is one event: the handler runs on the props the store holds
    when the event arrives, and the actions it dispatched are reduced in
    order. A change of a select2 widget reaches the component through the
    functions bound on the widget's element, which jQuery calls in binding
    order until one throws; each such call is one event. Every handler reads its props before its first dispatch, so the
    props of one run are one snapshot of the store. *)

Record Config : Type := {
  cfg_editMode : bool;
  cfg_campaignId : value;
  cfg_Campaign : object;
}.

Definition props_of (c : Config) (s : Store) : Props :=
  {| props_App := {| App.formChanged := store_formChanged s |};
     props_AdGroup := {| AdGroup.details := store_details s;
                         AdGroup.isSaving := store_isSaving s |};
     props_Campaign := {| Campaign.details := cfg_Campaign c |};
     editMode := cfg_editMode c;
     params_campaignId := cfg_campaignId c |}.

Inductive event : Type :=
| Mount                                (* componentWillMount *)
| Change                               (* onChange of a field: handleChange *)
| Switch (d : Dom) (e : Event)         (* onChange of the type toggle: handleSwitch *)
| Submit (d : Dom)                     (* onClick of Save: handleFormSubmit *)
| Response (r : value)                 (* a network call resolved: handleResponse *)
| DidMount                             (* componentDidMount *)
| DidUpdate (prevProps : Props)        (* componentDidUpdate *)
| SelectChange (cb : callback).        (* change of a select2 widget, delivered to [cb] *)

Definition handler (c : Config) (s : Store) (ev : event) : M unit :=
  match ev with
  | Mount => componentWillMount (props_of c s)
  | Change => handleChange (props_of c s)
  | Switch d e => handleSwitch (props_of c s) d e
  | Submit d => handleFormSubmit (props_of c s) d
  | Response r => handleResponse (props_of c s) r
  | DidMount => componentDidMount (props_of c s)
  | DidUpdate prevProps => componentDidUpdate prevProps (props_of c s)
  | SelectChange cb => select2_change (props_of c s) cb
  end.

Definition before (s : Store) (ev : event) : Store :=
  match ev with
  | Response _ => response_arrived s
  | _ => s
  end.

Definition step (c : Config) (s : Store) (ev : event) : Store * list effect :=
  let s0 := before s ev in
  let t := trace (handler c s0 ev) in
  (reduce_all s0 t, t).

Fixpoint run (c : Config) (s : Store) (evs : list event) : Store * list effect :=
  match evs with
  | [] => (s, [])
  | ev :: rest =>
      let (s1, t1) := step c s ev in
      let (s2, t2) := run c s1 rest in
      (s2, (t1 ++ t2)%list)
  end.

(** ** Observations on a trace *)

Definition is_network (a : action) : bool :=
  match a with
  | createAdGroup _ | updateAdGroup _ _ => true
  | _ => false
  end.

Definition network_ops (t : list effect) : list action :=
  filter is_network (dispatched t).

Definition is_formChanged (a : action) : bool :=
  match a with
  | formChanged => true
  | _ => false
  end.

Definition is_formSaved (a : action) : bool :=
  match a with
  | formSaved => true
  | _ => false
  end.

Definition count_formChanged (t : list effect) : nat :=
  length (filter is_formChanged (dispatched t)).

Definition navigations (t : list effect) : list string :=
  flat_map (fun e => match e with PushState _ path => [path] | _ => [] end) t.

Definition is_field_change (ev : event) : bool :=
  match ev with
  | Change | Switch _ _ | SelectChange _ => true
  | _ => false
  end.

(** The field changes whose handling gets as far as [handleChange]. *)
Definition reaches_handleChange (ev : event) : bool :=
  match ev with
  | Change | Switch _ _ | SelectChange MountCallback => true
  | _ => false
  end.

Definition payloads (t : list effect) : list string :=
  flat_map (fun a => match a with
                     | createAdGroup data => [data]
                     | updateAdGroup _ data => [data]
                     | _ => []
                     end) (dispatched t).

(** The props of a component whose store has the saving flag at [v]. *)
Definition with_isSaving (v : value) (p : Props) : Props :=
  {| props_App := props_App p;
     props_AdGroup := {| AdGroup.details := AdGroup.details (props_AdGroup p);
                         AdGroup.isSaving := v |};
     props_Campaign := props_Campaign p;
     editMode := editMode p;
     params_campaignId := params_campaignId p |}.

(** The field change that is lost on the way: a select2 change delivered to
    the function bound by [componentDidUpdate]. *)
Definition lost_change (ev : event) : bool :=
  match ev with
  | SelectChange UpdateCallback => true
  | _ => false
  end.

(** A save: a response that takes the success branch of [handleResponse]. *)
Definition is_save (ev : event) : bool :=
  match ev with
  | Response (Some (JObj fields)) => negb (is_undefined (lookup "result" fields))
  | _ => false
  end.

Definition no_save (evs : list event) : bool :=
  forallb (fun ev => negb (is_save ev)) evs.

Definition no_field_change (evs : list event) : bool :=
  forallb (fun ev => negb (is_field_change ev)) evs.

(** The flag the spec's data model describes, as a function of the event:
    set on a field change, cleared by a response that carries a result, and
    otherwise left as it is. *)
Definition dirty_flag_after (s : Store) (ev : event) : value :=
  match ev with
  | Change | Switch _ _ | SelectChange _ => Some (JBool true)
  | Response (Some (JObj fields)) =>
      if is_undefined (lookup "result" fields)
      then store_formChanged s
      else Some (JBool false)
  | _ => store_formChanged s
  end.



(** ** Concrete data used to exercise the statements *)

Definition empty_store : Store :=
  {| store_formChanged := undefined;
     store_message := None;
     store_details := [];
     store_isSaving := undefined |}.

Definition create_mode : Config :=
  {| cfg_editMode := false;
     cfg_campaignId := Some (JNum 3);
     cfg_Campaign := [("id", JNum 3)] |}.

Definition edit_mode : Config :=
  {| cfg_editMode := true;
     cfg_campaignId := undefined;
     cfg_Campaign := [("id", JNum 3)] |}.

Definition stored_adgroup : Store :=
  {| store_formChanged := Some (JBool false);
     store_message := None;
     store_details := [("id", JNum 5); ("name", JStr "Spring");
                       ("type", JStr "directory"); ("campaign_id", JNum 3);
                       ("categories", JArr [JStr "Sports"])];
     store_isSaving := Some (JBool true) |}.


Definition toggle : Event := {| target_id := "AdGroupType" |}.

(** A page whose form passes validation, with the type toggle as given. *)
Definition valid_page (checked : bool) : Dom :=
  {| validate := true;
     serializeJSON :=
       if checked
       then [("campaign_id", JStr "3"); ("paused", JStr "false");
             ("name", JStr "Spring"); ("type", JStr "true")]
       else [("campaign_id", JStr "3"); ("paused", JStr "false");
             ("name", JStr "Spring"); ("categories", JArr [JStr "Sports"])];
     prop_checked := fun _ => Some (JBool checked) |}.

(** A page whose required name field is empty: validation fails. *)
Definition invalid_page : Dom :=
  {| validate := false;
     serializeJSON := [("campaign_id", JStr "3"); ("paused", JStr "false");
                       ("name", JStr "")];
     prop_checked := fun _ => Some (JBool false) |}.

Definition success_response (n : Z) : value :=
  Some (JObj [("result", JObj [("id", JNum n)])]).

Definition failure_response (msg : string) : value :=
  Some (JObj [("message", JStr msg)]).

(** ** The option lists of render

    [render] maps each list of reference data in [props.Init] to the
    [<option>] elements of a select, keyed by position. [_.capitalize] is the
    page's global lodash, taken here as the function [capitalize]. *)

Module Init.
Record state : Type := {
  categories : list json;
  channels : list object;          (* rows [{id, name}] *)
  locales : list json;
}.
End Init.

Record OptionView : Type := {
  option_key : option string;      (* React's [key]; the blank option has none *)
  option_value : value;
  option_text : value;
}.

(** [l.map((row, index) => f(row, index))], counting from [i]. *)
Fixpoint map_index {A B : Type} (f : A -> nat -> B) (i : nat) (l : list A) : list B :=
  match l with
  | [] => []
  | row :: rest => f row i :: map_index f (S i) rest
  end.

Definition index_to_string (index : nat) : string := string_of_Z (Z.of_nat index).

Definition category_options (init : Init.state) : list OptionView :=
  map_index (fun row index =>
               {| option_key := Some ("categories-" ++ index_to_string index);
                  option_value := Some row;
                  option_text := Some row |})
            0 (Init.categories init).

Definition channel_options (capitalize : value -> string) (init : Init.state)
  : list OptionView :=
  map_index (fun row index =>
               {| option_key := Some ("channel-" ++ index_to_string index);
                  option_value := lookup "id" row;
                  option_text := Some (JStr (capitalize (lookup "name" row))) |})
            0 (Init.channels init).

Definition blank_option : OptionView :=
  {| option_key := None; option_value := undefined; option_text := undefined |}.

(** The options of the locale select: a blank one, then the locales. *)
Definition locale_options (init : Init.state) : list OptionView :=
  blank_option ::
  map_index (fun row index =>
               {| option_key := Some ("locales-" ++ index_to_string index);
                  option_value := Some row;
                  option_text := Some row |})
            0 (Init.locales init).

(** The props of a component whose store holds the details [o]. *)
Definition with_details (o : object) (p : Props) : Props :=
  {| props_App := props_App p;
     props_AdGroup := {| AdGroup.details := o;
                         AdGroup.isSaving := AdGroup.isSaving (props_AdGroup p) |};
     props_Campaign := props_Campaign p;
     editMode := editMode p;
     params_campaignId := params_campaignId p |}.

(** [result.id] for a [result] that is neither [undefined] nor [null]. *)
Definition id_of (res : json) : value :=
  match res with
  | JObj o => lookup "id" o
  | _ => undefined
  end.

Definition keys (o : object) : list string := map fst o.

(** * Properties *)

(** ** Objects *)

Lemma lookup_assign_same (k : string) (v : json) (o : object) :
  lookup k (assign k v o) = Some v.
Proof.
  induction o as [|[k' v'] rest IH]; simpl.
  - now rewrite String.eqb_refl.
  - destruct (String.eqb k k') eqn:E; simpl; rewrite E; auto.
Qed.

Lemma lookup_assign_other (k k' : string) (v : json) (o : object) :
  k <> k' -> lookup k (assign k' v o) = lookup k o.
Proof.
  intros Hne. induction o as [|[k0 v0] rest IH]; simpl.
  - destruct (String.eqb_spec k k'); [contradiction | reflexivity].
  - destruct (String.eqb_spec k' k0) as [->|Hk0]; simpl.
    + destruct (String.eqb_spec k k0); [contradiction | reflexivity].
    + destruct (String.eqb_spec k k0); [reflexivity | exact IH].
Qed.

Lemma force_type_lookup (formData : object) :
  lookup "type" (force_type formData) =
  Some (JStr (if is_undefined (lookup "type" formData)
              then "suggested" else "directory")).
Proof.
  unfold force_type.
  destruct (is_undefined (lookup "type" formData)); apply lookup_assign_same.
Qed.

Lemma force_type_frame (formData : object) (k : string) :
  k <> "type" -> lookup k (force_type formData) = lookup k formData.
Proof.
  intros Hk. unfold force_type.
  destruct (is_undefined (lookup "type" formData));
    now apply lookup_assign_other.
Qed.

(** ** The response handler *)

(** C1. A response whose [result] is an object takes the success branch:
    one success notification, "Ad Group Updated Successfully" in edit mode
    and "Ad Group Created Successfully" otherwise, then [formSaved], then
    [history.pushState(null, '/adgroups/' + result.id)], and the handler
    returns. Reduced by the store, the dispatched actions leave the dirty
    flag cleared. With a numeric id [n] the one navigation target is
    [/adgroups/n], [n] in decimal. *)
Theorem handleResponse_success (p : Props) (s : Store) (fields res : object) :
  lookup "result" fields = Some (JObj res) ->
  handleResponse p (Some (JObj fields)) =
    ([Dispatch (displayMessage "success"
                  (Some (JStr (if editMode p
                               then "Ad Group Updated Successfully"
                               else "Ad Group Created Successfully"))));
      Dispatch formSaved;
      PushState (Some JNull) ("/adgroups/" ++ to_string (lookup "id" res))],
     Returned tt)
  /\ store_formChanged
       (reduce_all s (trace (handleResponse p (Some (JObj fields)))))
     = Some (JBool false)
  /\ (forall n : Z,
        (Z.abs n <= MAX_SAFE_INTEGER)%Z ->
        lookup "id" res = Some (JNum n) ->
        navigations (trace (handleResponse p (Some (JObj fields))))
        = ["/adgroups/" ++ string_of_Z n]).
Proof.
  intros Hres.
  assert (E : handleResponse p (Some (JObj fields)) =
    ([Dispatch (displayMessage "success"
                  (Some (JStr (if editMode p
                               then "Ad Group Updated Successfully"
                               else "Ad Group Created Successfully"))));
      Dispatch formSaved;
      PushState (Some JNull) ("/adgroups/" ++ to_string (lookup "id" res))],
     Returned tt)).
  { unfold handleResponse. simpl get_prop. unfold bind at 1. simpl ret.
    rewrite Hres. simpl. destruct (editMode p); reflexivity. }
  rewrite E. split; [reflexivity | split].
  - reflexivity.
  - intros n _ Hid. simpl. now rewrite Hid.
Qed.

Lemma handleResponse_success_witness :
  handleResponse (props_of edit_mode stored_adgroup) (success_response 42) =
    ([Dispatch (displayMessage "success" (Some (JStr "Ad Group Updated Successfully")));
      Dispatch formSaved;
      PushState (Some JNull) "/adgroups/42"],
     Returned tt).
Proof.
  exact (proj1 (handleResponse_success (props_of edit_mode stored_adgroup)
                  stored_adgroup
                  [("result", JObj [("id", JNum 42)])] [("id", JNum 42)]
                  eq_refl)).
Defined.

Example handleResponse_create_7 :
  handleResponse (props_of create_mode empty_store) (success_response 7) =
    ([Dispatch (displayMessage "success" (Some (JStr "Ad Group Created Successfully")));
      Dispatch formSaved;
      PushState (Some JNull) "/adgroups/7"],
     Returned tt).
Proof. reflexivity. Qed.

(** A [result] that is [null] is not [undefined]: the success branch runs
    and stops at [response.result.id], before any navigation. *)
Example handleResponse_null_result :
  handleResponse (props_of create_mode empty_store)
                 (Some (JObj [("result", JNull)])) =
    ([Dispatch (displayMessage "success" (Some (JStr "Ad Group Created Successfully")));
      Dispatch formSaved],
     Thrown TypeError).
Proof. reflexivity. Qed.

Lemma handleResponse_without_result (p : Props) (fields : object) :
  lookup "result" fields = undefined ->
  handleResponse p (Some (JObj fields)) =
    ([Dispatch (displayMessage "error" (lookup "message" fields));
      Dispatch shownMessage;
      ScrollTo 0 0],
     Returned tt).
Proof.
  intros Hres. unfold handleResponse. simpl get_prop. unfold bind at 1.
  simpl ret. rewrite Hres. reflexivity.
Qed.

(** C2. A response object without a [result] takes the failure branch: an
    error notification carrying [response.message], [shownMessage],
    [window.scrollTo(0, 0)], and nothing else; [history.pushState] is not
    called. Reduced by the store, the notification is the error with the
    server's message, marked shown. *)
Theorem handleResponse_failure (p : Props) (s : Store) (fields : object) :
  lookup "result" fields = undefined ->
  handleResponse p (Some (JObj fields)) =
    ([Dispatch (displayMessage "error" (lookup "message" fields));
      Dispatch shownMessage;
      ScrollTo 0 0],
     Returned tt)
  /\ navigations (trace (handleResponse p (Some (JObj fields)))) = []
  /\ store_message
       (reduce_all s (trace (handleResponse p (Some (JObj fields)))))
     = Some {| severity := "error";
               text := lookup "message" fields;
               shown := true |}.
Proof.
  intros Hres.
  rewrite (handleResponse_without_result p fields Hres). repeat split.
Qed.

Lemma handleResponse_failure_witness :
  handleResponse (props_of create_mode empty_store) (failure_response "bad locale") =
    ([Dispatch (displayMessage "error" (Some (JStr "bad locale")));
      Dispatch shownMessage;
      ScrollTo 0 0],
     Returned tt)
  /\ navigations
       (trace (handleResponse (props_of create_mode empty_store)
                              (failure_response "bad locale"))) = [].
Proof.
  pose proof (handleResponse_failure (props_of create_mode empty_store)
                empty_store [("message", JStr "bad locale")] eq_refl) as H.
  split; [exact (proj1 H) | exact (proj1 (proj2 H))].
Defined.

(** ** The submit controller *)

Lemma handleFormSubmit_rejected (p : Props) (d : Dom) :
  validate d = false ->
  handleFormSubmit p d =
    ([PreventDefault;
      SetAttr "input.select2-search__field" "data-parsley-excluded" (JBool true);
      Dispatch (displayMessage "error" (Some (JStr "Validation Errors")));
      Dispatch shownMessage;
      ScrollTo 0 0],
     Returned tt).
Proof.
  intros Hv. unfold handleFormSubmit. rewrite Hv. reflexivity.
Qed.

(** C3. When validation fails, [handleFormSubmit] dispatches neither
    [createAdGroup] nor [updateAdGroup]: after the two preparatory calls it
    raises the error notification "Validation Errors", marks it shown and
    scrolls to the top. *)
Theorem handleFormSubmit_invalid (p : Props) (d : Dom) :
  validate d = false ->
  handleFormSubmit p d =
    ([PreventDefault;
      SetAttr "input.select2-search__field" "data-parsley-excluded" (JBool true);
      Dispatch (displayMessage "error" (Some (JStr "Validation Errors")));
      Dispatch shownMessage;
      ScrollTo 0 0],
     Returned tt)
  /\ network_ops (trace (handleFormSubmit p d)) = [].
Proof.
  intros Hv. rewrite (handleFormSubmit_rejected p d Hv).
  split; reflexivity.
Qed.

Lemma handleFormSubmit_invalid_witness :
  network_ops (trace (handleFormSubmit (props_of create_mode empty_store) invalid_page))
  = [].
Proof.
  exact (proj2 (handleFormSubmit_invalid (props_of create_mode empty_store)
                  invalid_page eq_refl)).
Defined.

Lemma handleFormSubmit_valid (p : Props) (d : Dom) :
  validate d = true ->
  handleFormSubmit p d =
    ([PreventDefault;
      SetAttr "input.select2-search__field" "data-parsley-excluded" (JBool true);
      Dispatch (if editMode p
                then updateAdGroup (lookup "id" (AdGroup.details (props_AdGroup p)))
                                   (JSON_stringify (JObj (force_type (serializeJSON d))))
                else createAdGroup
                       (JSON_stringify (JObj (force_type (serializeJSON d)))));
      ThenHandleResponse],
     Returned tt).
Proof.
  intros Hv. unfold handleFormSubmit. rewrite Hv.
  destruct (editMode p); reflexivity.
Qed.

(** C4. On a validated submit the one payload sent is the JSON text of the
    form data with its [type] overwritten: "suggested" exactly when the
    serialized form data has no [type] key, "directory" exactly when it has
    one, and never anything else; the other keys are sent as serialized. *)
Theorem payload_type (p : Props) (d : Dom) :
  validate d = true ->
  let payload := force_type (serializeJSON d) in
  payloads (trace (handleFormSubmit p d)) = [JSON_stringify (JObj payload)]
  /\ (lookup "type" payload = Some (JStr "suggested")
      \/ lookup "type" payload = Some (JStr "directory"))
  /\ (lookup "type" payload = Some (JStr "suggested")
      <-> lookup "type" (serializeJSON d) = undefined)
  /\ (lookup "type" payload = Some (JStr "directory")
      <-> lookup "type" (serializeJSON d) <> undefined)
  /\ (forall k, k <> "type" -> lookup k payload = lookup k (serializeJSON d)).
Proof.
  intros Hv payload. subst payload.
  rewrite (handleFormSubmit_valid p d Hv), force_type_lookup.
  split.
  { destruct (editMode p); reflexivity. }
  destruct (lookup "type" (serializeJSON d)) as [j|] eqn:Ht; simpl.
  - split; [now right|]. split; [|split].
    + split; intro H; discriminate H.
    + split; [intros _ H; discriminate H | reflexivity].
    + intros k Hk. now apply force_type_frame.
  - split; [now left|]. split; [|split].
    + split; reflexivity.
    + split; [intro H; discriminate H | intro H; now contradiction H].
    + intros k Hk. now apply force_type_frame.
Qed.

Lemma payload_type_witness :
  payloads (trace (handleFormSubmit (props_of create_mode empty_store)
                                    (valid_page true)))
  = [JSON_stringify
       (JObj [("campaign_id", JStr "3"); ("paused", JStr "false");
              ("name", JStr "Spring"); ("type", JStr "directory")])].
Proof.
  exact (proj1 (payload_type (props_of create_mode empty_store)
                  (valid_page true) eq_refl)).
Defined.

Example payload_untouched_toggle :
  payloads (trace (handleFormSubmit (props_of create_mode empty_store)
                                    (valid_page false)))
  = [JSON_stringify
       (JObj [("campaign_id", JStr "3"); ("paused", JStr "false");
              ("name", JStr "Spring"); ("categories", JArr [JStr "Sports"]);
              ("type", JStr "suggested")])].
Proof. reflexivity. Qed.

(** C5. A validated submit dispatches exactly one network operation:
    [updateAdGroup] with the id of the current details and the payload in
    edit mode, [createAdGroup] with the payload otherwise. *)
Theorem handleFormSubmit_one_network_op (p : Props) (d : Dom) :
  validate d = true ->
  network_ops (trace (handleFormSubmit p d)) =
    [if editMode p
     then updateAdGroup (lookup "id" (AdGroup.details (props_AdGroup p)))
                        (JSON_stringify (JObj (force_type (serializeJSON d))))
     else createAdGroup (JSON_stringify (JObj (force_type (serializeJSON d))))]
  /\ result (handleFormSubmit p d) = Returned tt.
Proof.
  intros Hv. rewrite (handleFormSubmit_valid p d Hv).
  split; [|reflexivity].
  destruct (editMode p); reflexivity.
Qed.

Lemma handleFormSubmit_one_network_op_witness :
  network_ops (trace (handleFormSubmit (props_of edit_mode stored_adgroup)
                                       (valid_page true)))
  = [updateAdGroup (Some (JNum 5))
       (JSON_stringify
          (JObj [("campaign_id", JStr "3"); ("paused", JStr "false");
                 ("name", JStr "Spring"); ("type", JStr "directory")]))].
Proof.
  exact (proj1 (handleFormSubmit_one_network_op
                  (props_of edit_mode stored_adgroup) (valid_page true) eq_refl)).
Defined.

(** ** One step of the mounted component *)

Lemma strict_eq_true (v : value) :
  strict_eq v (JBool true) = true <-> v = Some (JBool true).
Proof.
  split.
  - destruct v as [[| [|] | | | |]|]; simpl; intro H;
      try discriminate H; reflexivity.
  - intros ->. reflexivity.
Qed.

Lemma dispatched_app (t1 t2 : list effect) :
  dispatched (t1 ++ t2) = (dispatched t1 ++ dispatched t2)%list.
Proof.
  induction t1 as [|e t1 IH]; simpl; [reflexivity|].
  destruct e; simpl; now rewrite IH.
Qed.

Lemma count_formChanged_app (t1 t2 : list effect) :
  count_formChanged (t1 ++ t2) = (count_formChanged t1 + count_formChanged t2)%nat.
Proof.
  unfold count_formChanged.
  now rewrite dispatched_app, filter_app, length_app.
Qed.

Lemma run_cons (c : Config) (s : Store) (ev : event) (evs : list event) :
  run c s (ev :: evs) =
    (fst (run c (fst (step c s ev)) evs),
     (snd (step c s ev) ++ snd (run c (fst (step c s ev)) evs))%list).
Proof.
  cbn [run]. destruct (step c s ev) as [s1 t1]. cbn [fst snd].
  destruct (run c s1 evs) as [s2 t2]. reflexivity.
Qed.

Lemma run_app (c : Config) (evs1 evs2 : list event) (s : Store) :
  run c s (evs1 ++ evs2) =
    (fst (run c (fst (run c s evs1)) evs2),
     (snd (run c s evs1) ++ snd (run c (fst (run c s evs1)) evs2))%list).
Proof.
  revert s. induction evs1 as [|ev evs1 IH]; intro s.
  - simpl. now destruct (run c s evs2).
  - rewrite <- app_comm_cons, !run_cons, IH. cbn [fst snd].
    now rewrite app_assoc.
Qed.

(** The trace of [handleChange] is decided by the flag alone. *)
Lemma handleChange_trace (p : Props) :
  handleChange p =
    (if strict_eq (App.formChanged (props_App p)) (JBool true)
     then [] else [Dispatch formChanged],
     Returned tt).
Proof.
  unfold handleChange.
  destruct (strict_eq (App.formChanged (props_App p)) (JBool true)); reflexivity.
Qed.

Lemma handleSwitch_trace (p : Props) (d : Dom) (e : Event) :
  handleSwitch p d e =
    (((if strict_eq (App.formChanged (props_App p)) (JBool true)
       then [] else [Dispatch formChanged])
      ++ [Dispatch (adGroupSetDetailsVar "type"
                      (JStr (if strict_eq (prop_checked d ("#" ++ target_id e))
                                          (JBool true)
                             then "directory" else "suggested")))])%list,
     Returned tt).
Proof.
  unfold handleSwitch. rewrite handleChange_trace.
  destruct (strict_eq (App.formChanged (props_App p)) (JBool true)); reflexivity.
Qed.

(** What [handleResponse] dispatches, whatever the response is: nothing
    (the response is [undefined] or [null]), the two actions of the failure
    branch, or the two actions of the success branch. *)
Lemma handleResponse_dispatched (p : Props) (r : value) :
  dispatched (trace (handleResponse p r)) =
    match r with
    | None | Some JNull => []
    | Some (JObj fields) =>
        if is_undefined (lookup "result" fields)
        then [displayMessage "error" (lookup "message" fields); shownMessage]
        else [displayMessage "success"
                (Some (JStr (if editMode p
                             then "Ad Group Updated Successfully"
                             else "Ad Group Created Successfully")));
              formSaved]
    | Some _ => [displayMessage "error" undefined; shownMessage]
    end.
Proof.
  destruct r as [[| b | n | str | items | fields]|]; try reflexivity.
  unfold handleResponse. simpl get_prop. unfold bind at 1. simpl ret.
  destruct (lookup "result" fields) as [res|]; [|reflexivity].
  simpl is_undefined. cbv iota.
  destruct (editMode p); destruct res; reflexivity.
Qed.

Lemma handleFormSubmit_dispatched (p : Props) (d : Dom) :
  dispatched (trace (handleFormSubmit p d)) =
    if validate d
    then [if editMode p
          then updateAdGroup (lookup "id" (AdGroup.details (props_AdGroup p)))
                             (JSON_stringify (JObj (force_type (serializeJSON d))))
          else createAdGroup (JSON_stringify (JObj (force_type (serializeJSON d))))]
    else [displayMessage "error" (Some (JStr "Validation Errors")); shownMessage].
Proof.
  destruct (validate d) eqn:Hv.
  - now rewrite (handleFormSubmit_valid p d Hv).
  - now rewrite (handleFormSubmit_rejected p d Hv).
Qed.

Section Machine.

Variable c : Config.

(** Everything the mounted component can dispatch, event by event. *)
Lemma handler_dispatched (s : Store) (ev : event) :
  dispatched (trace (handler c s ev)) =
    match ev with
    | Mount =>
        if is_undefined (lookup "type" (store_details s))
        then [adGroupSetDetailsVar "type" (JStr "suggested")]
        else []
    | Change =>
        if strict_eq (store_formChanged s) (JBool true) then [] else [formChanged]
    | Switch d e =>
        ((if strict_eq (store_formChanged s) (JBool true) then [] else [formChanged])
         ++ [adGroupSetDetailsVar "type"
               (JStr (if strict_eq (prop_checked d ("#" ++ target_id e)) (JBool true)
                      then "directory" else "suggested"))])%list
    | Submit d => dispatched (trace (handleFormSubmit (props_of c s) d))
    | Response r => dispatched (trace (handleResponse (props_of c s) r))
    | DidMount | DidUpdate _ | SelectChange UpdateCallback => []
    | SelectChange MountCallback =>
        if strict_eq (store_formChanged s) (JBool true) then [] else [formChanged]
    end.
Proof.
  destruct ev as [| | d e | d | r | | prev | [|]]; cbn [handler];
    try reflexivity.
  - unfold componentWillMount. cbn [props_of props_AdGroup AdGroup.details].
    destruct (is_undefined _); reflexivity.
  - rewrite handleChange_trace. cbn [props_of props_App App.formChanged].
    destruct (strict_eq _ _); reflexivity.
  - rewrite handleSwitch_trace. cbn [props_of props_App App.formChanged].
    destruct (strict_eq (store_formChanged s) _); reflexivity.
  - unfold componentDidUpdate. destruct (_ || _); reflexivity.
  - cbn [select2_change]. rewrite handleChange_trace.
    cbn [props_of props_App App.formChanged].
    destruct (strict_eq _ _); reflexivity.
Qed.

(** Opens a goal about one step into one goal per event and per branch the
    handler of that event can take. *)
Ltac each_branch ev :=
  unfold step, reduce_all; cbn [fst snd];
  rewrite handler_dispatched;
  destruct ev as [| | ?d ?e | ?d | [[| ?b | ?n | ?str | ?items | ?fields]|]
                  | | ?prev | [|]];
  rewrite ?handleFormSubmit_dispatched, ?handleResponse_dispatched;
  cbn [before response_arrived store_details store_formChanged
       is_field_change reaches_handleChange lost_change is_save
       dirty_flag_after andb negb];
  repeat match goal with
         | |- context [if strict_eq (store_formChanged ?s) ?l then _ else _] =>
             destruct (strict_eq (store_formChanged s) l) eqn:?
         | |- context [if is_undefined ?v then _ else _] =>
             destruct (is_undefined v) eqn:?
         | |- context [if validate ?d then _ else _] => destruct (validate d) eqn:?
         | |- context [if editMode ?p then _ else _] => destruct (editMode p) eqn:?
         end.

(** The dirty flag after a step is the one [dirty_flag_after] names, but
    for the lost change, which leaves the flag as it found it. *)
Lemma step_formChanged (s : Store) (ev : event) :
  store_formChanged (fst (step c s ev)) =
    if lost_change ev then store_formChanged s else dirty_flag_after s ev.
Proof.
  each_branch ev; try reflexivity;
    match goal with
    | H : strict_eq _ (JBool true) = true |- _ => now apply strict_eq_true in H
    end.
Qed.


(** How many times one step dispatches [formChanged]. *)
Lemma step_count_formChanged (s : Store) (ev : event) :
  count_formChanged (snd (step c s ev)) =
    if reaches_handleChange ev
       && negb (strict_eq (store_formChanged s) (JBool true))
    then 1%nat else 0%nat.
Proof.
  unfold count_formChanged. each_branch ev; reflexivity.
Qed.

(** [formSaved] is dispatched by a save and by nothing else, [formChanged]
    by a field change that reaches [handleChange] and finds the flag not set,
    and by nothing else. *)
Lemma step_dispatches_formSaved (s : Store) (ev : event) :
  existsb is_formSaved (dispatched (snd (step c s ev))) = is_save ev.
Proof.
  each_branch ev; reflexivity.
Qed.

Lemma step_dispatches_formChanged (s : Store) (ev : event) :
  existsb is_formChanged (dispatched (snd (step c s ev)))
  = reaches_handleChange ev
    && negb (strict_eq (store_formChanged s) (JBool true)).
Proof.
  each_branch ev; reflexivity.
Qed.

Lemma not_lost_change (ev : event) :
  is_field_change ev = false -> lost_change ev = false.
Proof.
  destruct ev as [| | d e | d | r | | prev | [|]]; simpl; auto.
Qed.

Lemma no_field_change_reaches (ev : event) :
  is_field_change ev = false -> reaches_handleChange ev = false.
Proof.
  destruct ev as [| | d e | d | r | | prev | [|]]; simpl; auto.
Qed.

Lemma dirty_flag_kept (s : Store) (ev : event) :
  is_save ev = false -> is_field_change ev = false ->
  dirty_flag_after s ev = store_formChanged s.
Proof.
  destruct ev as [| | d e | d | r | | prev | cb]; simpl; intros Hs Hc;
    try reflexivity; try discriminate Hc.
  destruct r as [[| b | n | str | items | fields]|]; try reflexivity.
  now destruct (is_undefined (lookup "result" fields)).
Qed.

Lemma dirty_flag_stays_set (s : Store) (ev : event) :
  is_save ev = false ->
  store_formChanged s = Some (JBool true) ->
  dirty_flag_after s ev = Some (JBool true).
Proof.
  intros Hs Hf.
  destruct (is_field_change ev) eqn:Hc.
  - destruct ev; try discriminate Hc; reflexivity.
  - now rewrite dirty_flag_kept.
Qed.

(** Before the first field change nothing dispatches [formChanged] and the
    flag is as it was. *)
Lemma run_before_first_change (evs : list event) (s : Store) :
  no_save evs = true -> no_field_change evs = true ->
  count_formChanged (snd (run c s evs)) = 0%nat
  /\ store_formChanged (fst (run c s evs)) = store_formChanged s.
Proof.
  revert s. induction evs as [|ev evs IH]; intros s Hs Hc.
  - split; reflexivity.
  - simpl in Hs, Hc.
    apply andb_true_iff in Hs as [Hs1 Hs2].
    apply andb_true_iff in Hc as [Hc1 Hc2].
    apply negb_true_iff in Hs1, Hc1.
    rewrite run_cons. cbn [fst snd].
    destruct (IH (fst (step c s ev)) Hs2 Hc2) as [IHn IHf].
    rewrite count_formChanged_app, IHn, IHf, step_count_formChanged.
    rewrite (no_field_change_reaches ev Hc1).
    rewrite step_formChanged, (not_lost_change ev Hc1).
    split; [reflexivity|].
    now apply dirty_flag_kept.
Qed.

(** Once the flag is set, nothing short of a save dispatches [formChanged]
    again. *)
Lemma run_after_first_change (evs : list event) (s : Store) :
  no_save evs = true ->
  store_formChanged s = Some (JBool true) ->
  count_formChanged (snd (run c s evs)) = 0%nat.
Proof.
  revert s. induction evs as [|ev evs IH]; intros s Hs Hf.
  - reflexivity.
  - simpl in Hs. apply andb_true_iff in Hs as [Hs1 Hs2].
    apply negb_true_iff in Hs1.
    rewrite run_cons. cbn [snd].
    rewrite count_formChanged_app, step_count_formChanged, Hf.
    cbn [strict_eq Bool.eqb negb]. rewrite andb_false_r.
    apply IH; [exact Hs2|].
    rewrite step_formChanged.
    destruct (lost_change ev); [exact Hf | now apply dirty_flag_stays_set].
Qed.

End Machine.

(** ** The dirty flag *)

(** Take any run of events between two saves, starting with the flag not
    set: [pre] holds no field change, [ev] is the first field change and
    reaches [handleChange] (directly, through [handleSwitch], or through the
    function bound by [componentDidMount]), and [post] is what follows, with
    no save anywhere. [formChanged] is dispatched by no event of [pre],
    exactly once by [ev], and by no event of [post]: once in the whole run.
    And [handleChange] alone dispatches nothing when [App.formChanged] is
    already [true]. *)
Lemma formChanged_once_through_handleChange
  (c : Config) (s : Store) (pre : list event) (ev : event) (post : list event) :
  strict_eq (store_formChanged s) (JBool true) = false ->
  no_save (pre ++ ev :: post) = true ->
  no_field_change pre = true ->
  reaches_handleChange ev = true ->
  let s1 := fst (run c s pre) in
  let s2 := fst (step c s1 ev) in
  count_formChanged (snd (run c s pre)) = 0%nat
  /\ count_formChanged (snd (step c s1 ev)) = 1%nat
  /\ count_formChanged (snd (run c s2 post)) = 0%nat
  /\ count_formChanged (snd (run c s (pre ++ ev :: post))) = 1%nat
  /\ (forall p : Props,
        strict_eq (App.formChanged (props_App p)) (JBool true) = true ->
        handleChange p = ([], Returned tt)).
Proof.
  intros Hflag Hsave Hpre Hev s1 s2.
  unfold no_save in Hsave. rewrite forallb_app in Hsave.
  apply andb_true_iff in Hsave as [Hsave_pre Hsave_rest].
  simpl in Hsave_rest. apply andb_true_iff in Hsave_rest as [Hsave_ev Hsave_post].
  apply negb_true_iff in Hsave_ev.
  destruct (run_before_first_change c pre s Hsave_pre Hpre) as [Hn_pre Hf_pre].
  assert (Hn_ev : count_formChanged (snd (step c s1 ev)) = 1%nat).
  { rewrite step_count_formChanged, Hev. unfold s1. now rewrite Hf_pre, Hflag. }
  assert (Hn_post : count_formChanged (snd (run c s2 post)) = 0%nat).
  { apply run_after_first_change; [exact Hsave_post|].
    unfold s2. rewrite step_formChanged.
    destruct ev as [| | d e | d | r | | prev | [|]];
      try discriminate Hev; reflexivity. }
  repeat split; try assumption.
  - rewrite run_app, run_cons. cbn [fst snd].
    rewrite !count_formChanged_app. fold s1. fold s2.
    now rewrite Hn_pre, Hn_ev, Hn_post.
  - intros p Hp. rewrite handleChange_trace, Hp. reflexivity.
Qed.

Example formChanged_once_through_handleChange_run :
  count_formChanged
    (snd (run create_mode (reduce stored_adgroup formSaved)
            ([Mount; DidMount; Submit invalid_page]
             ++ SelectChange MountCallback
                :: [Change; Switch (valid_page true) toggle; Change;
                    Submit (valid_page true);
                    Response (failure_response "bad locale"); Change])))
  = 1%nat.
Proof.
  exact (proj1 (proj2 (proj2 (proj2
    (formChanged_once_through_handleChange
       create_mode (reduce stored_adgroup formSaved)
       [Mount; DidMount; Submit invalid_page] (SelectChange MountCallback)
       [Change; Switch (valid_page true) toggle; Change;
        Submit (valid_page true);
        Response (failure_response "bad locale"); Change]
       eq_refl eq_refl eq_refl eq_refl))))).
Qed.

(** Whatever the props, a select2 change delivered to the function bound by
    [componentDidUpdate] dispatches nothing and ends in a [ReferenceError];
    delivered to the one bound by [componentDidMount] it is [handleChange]. *)
Lemma select2_change_by_binding (c : Config) (s : Store) :
  handler c s (SelectChange UpdateCallback) = ([], Thrown ReferenceError)
  /\ handler c s (SelectChange MountCallback) = handleChange (props_of c s).
Proof. split; reflexivity. Qed.


(** Away from the lost change the dirty flag moves exactly as
    [dirty_flag_after] says: a field change sets it, a response with a
    [result] clears it, every other event leaves it alone. [formSaved] is
    dispatched by the success branch of [handleResponse] and by nothing
    else; [formChanged] by a field change that finds the flag not set and
    by nothing else. A rejected submission (a response object without
    [result]) leaves the flag as it was and does not navigate, so the form
    stays on screen. *)
Lemma dirty_flag_transitions_but_lost_change
  (c : Config) (s : Store) (ev : event) :
  lost_change ev = false ->
  store_formChanged (fst (step c s ev)) = dirty_flag_after s ev
  /\ existsb is_formSaved (dispatched (snd (step c s ev))) = is_save ev
  /\ existsb is_formChanged (dispatched (snd (step c s ev)))
     = is_field_change ev && negb (strict_eq (store_formChanged s) (JBool true))
  /\ (forall fields : object,
        ev = Response (Some (JObj fields)) ->
        lookup "result" fields = undefined ->
        store_formChanged (fst (step c s ev)) = store_formChanged s
        /\ navigations (snd (step c s ev)) = []).
Proof.
  intros Hlost.
  assert (Hreach : reaches_handleChange ev = is_field_change ev).
  { destruct ev as [| | d e | d | r | | prev | [|]];
      try reflexivity; discriminate Hlost. }
  split; [now rewrite step_formChanged, Hlost|].
  split; [apply step_dispatches_formSaved|].
  split; [now rewrite step_dispatches_formChanged, Hreach|].
  intros fields -> Hres. split.
  - rewrite step_formChanged. simpl. now rewrite Hres.
  - unfold step. cbn [snd handler before].
    now rewrite (handleResponse_without_result _ fields Hres).
Qed.

Example rejected_submission_keeps_flag :
  store_formChanged
    (fst (step edit_mode (reduce stored_adgroup formChanged)
            (Response (failure_response "bad locale"))))
  = Some (JBool true)
  /\ navigations
       (snd (step edit_mode (reduce stored_adgroup formChanged)
               (Response (failure_response "bad locale")))) = [].
Proof.
  exact (proj2 (proj2 (proj2
    (dirty_flag_transitions_but_lost_change
       edit_mode (reduce stored_adgroup formChanged)
       (Response (failure_response "bad locale")) eq_refl)))
    [("message", JStr "bad locale")] eq_refl eq_refl).
Qed.


(** ** Submitting while a submission is in flight *)

(** [handleFormSubmit] never reads [AdGroup.isSaving]. *)
Lemma handleFormSubmit_with_isSaving (v : value) (p : Props) (d : Dom) :
  handleFormSubmit (with_isSaving v p) d = handleFormSubmit p d.
Proof. reflexivity. Qed.

(** C7, as stated, fails: the stored ad group has [AdGroup.isSaving] true,
    its form validates, and the submit dispatches [updateAdGroup] all the
    same. *)
Lemma submit_while_saving_counterexample :
  truthy (AdGroup.isSaving (props_AdGroup (props_of edit_mode stored_adgroup)))
  = true
  /\ network_ops (trace (handleFormSubmit (props_of edit_mode stored_adgroup)
                                          (valid_page true)))
     = [updateAdGroup (Some (JNum 5))
          (JSON_stringify
             (JObj [("campaign_id", JStr "3"); ("paused", JStr "false");
                    ("name", JStr "Spring"); ("type", JStr "directory")]))].
Proof. split; reflexivity. Qed.

(** Two clicks on Save with no response in between: the second finds the
    saving flag up and still sends its request. *)
Example two_submits_two_requests :
  truthy (store_isSaving (fst (step create_mode empty_store (Submit (valid_page false)))))
  = true
  /\ length (network_ops
               (snd (run create_mode empty_store
                       [Submit (valid_page false); Submit (valid_page false)])))
     = 2%nat.
Proof. split; reflexivity. Qed.

(** C7, amended. The saving flag guards nothing in [handleFormSubmit]: the
    handler does the same whatever the flag holds, so it dispatches one
    network operation when the form validates and none when it does not,
    in flight or not. The flag only decides whether [render] puts the
    spinner image into the Save button. *)
Theorem handleFormSubmit_ignores_isSaving (v : value) (p : Props) (d : Dom) :
  handleFormSubmit (with_isSaving v p) d = handleFormSubmit p d
  /\ length (network_ops (trace (handleFormSubmit (with_isSaving v p) d)))
     = (if validate d then 1%nat else 0%nat)
  /\ spinner (snd (render (with_isSaving v p))) = truthy v.
Proof.
  split; [reflexivity|]. split; [|reflexivity].
  rewrite handleFormSubmit_with_isSaving.
  unfold network_ops. rewrite handleFormSubmit_dispatched.
  destruct (validate d); [destruct (editMode p)|]; reflexivity.
Qed.

(** ** The type toggle *)

(** C8. [handleSwitch] dispatches [formChanged] (when the flag is not yet
    set) and [adGroupSetDetailsVar('type', v)] with [v] "directory" for a
    checked toggle and "suggested" otherwise, and nothing else. In the store
    this sets the dirty flag and the [type] of the details; every other
    field of the details (categories and the two frequency caps among them),
    the notification and the saving flag are as before. Rendered from the
    new props, the category control is hidden and disabled exactly when the
    toggle is checked, and so is the budget section wherever it exists
    (create mode). *)
Theorem handleSwitch_frame (c : Config) (s : Store) (d : Dom) (e : Event) :
  let checked := strict_eq (prop_checked d ("#" ++ target_id e)) (JBool true) in
  let v := if checked then "directory" else "suggested" in
  let s' := fst (step c s (Switch d e)) in
  let view := snd (render (props_of c s')) in
  dispatched (snd (step c s (Switch d e)))
  = ((if strict_eq (store_formChanged s) (JBool true) then [] else [formChanged])
     ++ [adGroupSetDetailsVar "type" (JStr v)])%list
  /\ lookup "type" (store_details s') = Some (JStr v)
  /\ store_formChanged s' = Some (JBool true)
  /\ (forall k : string,
        k <> "type" -> lookup k (store_details s') = lookup k (store_details s))
  /\ store_message s' = store_message s
  /\ store_isSaving s' = store_isSaving s
  /\ categories_className view = (if checked then "hide" else "")
  /\ categories_disabled view = checked
  /\ budget view =
       (if cfg_editMode c then None
        else Some {| budget_className := if checked then "hide" else "";
                     frequency_cap_daily_disabled := checked;
                     frequency_cap_total_disabled := checked |})
  /\ (forall k : string,
        k <> "type" -> k <> "campaign_id" ->
        lookup k (fst (render (props_of c s'))) = lookup k (store_details s)).
Proof.
  intros checked v s' view.
  assert (Hs' : s' = reduce_all s (trace (handleSwitch (props_of c s) d e)))
    by reflexivity.
  rewrite handleSwitch_trace in Hs'.
  cbn [trace fst props_of props_App App.formChanged] in Hs'.
  fold checked in Hs'. fold v in Hs'.
  assert (Hdet : store_details s' = assign "type" (JStr v) (store_details s)).
  { rewrite Hs'. destruct (strict_eq (store_formChanged s) _); reflexivity. }
  assert (Htype : lookup "type" (store_details s') = Some (JStr v)).
  { rewrite Hdet. apply lookup_assign_same. }
  assert (Hframe : forall k, k <> "type" ->
            lookup k (store_details s') = lookup k (store_details s)).
  { intros k Hk. rewrite Hdet. now apply lookup_assign_other. }
  assert (Hdata : forall k, k <> "campaign_id" ->
            lookup k (render_data (props_of c s')) = lookup k (store_details s')).
  { intros k Hk. unfold render_data.
    cbn [props_of props_AdGroup AdGroup.details params_campaignId].
    destruct (is_undefined _); [|reflexivity].
    destruct (cfg_campaignId c); [|reflexivity].
    now apply lookup_assign_other. }
  assert (Hdir : strict_eq (lookup "type" (render_data (props_of c s')))
                           (JStr "directory") = checked).
  { rewrite Hdata by discriminate. rewrite Htype. unfold v.
    destruct checked; reflexivity. }
  split.
  { unfold step. cbn [snd handler before]. rewrite handleSwitch_trace.
    cbn [trace fst props_of props_App App.formChanged].
    destruct (strict_eq (store_formChanged s) _); reflexivity. }
  split; [exact Htype|].
  split.
  { unfold s'. rewrite step_formChanged. reflexivity. }
  split; [exact Hframe|].
  split.
  { rewrite Hs'. destruct (strict_eq (store_formChanged s) _); reflexivity. }
  split.
  { rewrite Hs'. destruct (strict_eq (store_formChanged s) _); reflexivity. }
  unfold view, render. cbn [snd fst categories_className categories_disabled budget].
  rewrite Hdir.
  split; [reflexivity|]. split; [reflexivity|].
  split.
  { cbn [props_of editMode]. destruct (cfg_editMode c); reflexivity. }
  intros k Hk1 Hk2. rewrite Hdata by exact Hk2. now apply Hframe.
Qed.

Lemma handleSwitch_frame_witness :
  lookup "categories"
    (store_details
       (fst (step create_mode stored_adgroup (Switch (valid_page true) toggle))))
  = Some (JArr [JStr "Sports"]).
Proof.
  exact (proj1 (proj2 (proj2 (proj2
    (handleSwitch_frame create_mode stored_adgroup (valid_page true) toggle))))
    "categories" ltac:(discriminate)).
Defined.

(** Toggling a stored ad group with categories to "directory" in create
    mode: the categories stay in the details, the controls are hidden. *)
Example switch_to_directory_keeps_categories :
  let s' := fst (step create_mode
                   {| store_formChanged := undefined;
                      store_message := None;
                      store_details := [("type", JStr "suggested");
                                        ("categories", JArr [JStr "Sports"]);
                                        ("frequency_cap_daily", JStr "4")];
                      store_isSaving := undefined |}
                   (Switch (valid_page true) toggle)) in
  store_details s' = [("type", JStr "directory");
                      ("categories", JArr [JStr "Sports"]);
                      ("frequency_cap_daily", JStr "4")]
  /\ categories_className (snd (render (props_of create_mode s'))) = "hide".
Proof. split; reflexivity. Qed.

(** ** The type of the details after mounting *)









(** Details whose [type] is outside the enum keep it through mounting: the
    guard of [componentWillMount] only tests for [undefined]. *)
Example mount_keeps_foreign_type :
  lookup "type"
    (store_details
       (fst (step edit_mode
               {| store_formChanged := undefined;
                  store_message := None;
                  store_details := [("id", JNum 5); ("type", JNull)];
                  store_isSaving := undefined |}
               Mount)))
  = Some JNull.
Proof. reflexivity. Qed.

(** * Further properties of the component *)

(** ** Decimal printing *)

Lemma string_of_Z_inj (n m : Z) : string_of_Z n = string_of_Z m -> n = m.
Proof.
  unfold string_of_Z. intros H.
  assert (E : Some (Z.to_int n) = Some (Z.to_int m)).
  { rewrite <- (NilEmpty.isi (Z.to_int n)), <- (NilEmpty.isi (Z.to_int m)).
    now rewrite H. }
  injection E as E.
  rewrite <- (DecimalZ.of_to n), <- (DecimalZ.of_to m). now rewrite E.
Qed.

Lemma append_inj_l (a b c : string) : a ++ b = a ++ c -> b = c.
Proof.
  induction a as [|ch a IH]; simpl; intros H; [exact H|].
  injection H as H. now apply IH.
Qed.

(** ** The response handler on every response *)

Lemma handleResponse_navigations (p : Props) (r : value) :
  navigations (trace (handleResponse p r)) =
    match r with
    | Some (JObj fields) =>
        match lookup "result" fields with
        | None | Some JNull => []
        | Some res => ["/adgroups/" ++ to_string (id_of res)]
        end
    | _ => []
    end.
Proof.
  destruct r as [[| b | n | str | items | fields]|]; try reflexivity.
  unfold handleResponse. simpl get_prop. unfold bind at 1. simpl ret.
  destruct (lookup "result" fields) as [res|]; [|reflexivity].
  simpl is_undefined. cbv iota.
  destruct (editMode p); destruct res; reflexivity.
Qed.

Lemma handleResponse_with_result (p : Props) (fields : object) (res : json) :
  lookup "result" fields = Some res ->
  res <> JNull ->
  handleResponse p (Some (JObj fields)) =
    ([Dispatch (displayMessage "success"
                  (Some (JStr (if editMode p
                               then "Ad Group Updated Successfully"
                               else "Ad Group Created Successfully"))));
      Dispatch formSaved;
      PushState (Some JNull) ("/adgroups/" ++ to_string (id_of res))],
     Returned tt).
Proof.
  intros Hres Hnull.
  unfold handleResponse. simpl get_prop. unfold bind at 1. simpl ret.
  rewrite Hres. simpl is_undefined. cbv iota.
  destruct (editMode p); destruct res; try reflexivity; now contradiction Hnull.
Qed.

(** X1. A [result] that is defined and not [null] but has no [id] (an
    object without the key, or a number, string, boolean or array) is
    handled as a success all the same: success notification, [formSaved],
    and a navigation to the literal path [/adgroups/undefined]. *)
Theorem handleResponse_missing_id (p : Props) (fields : object) (res : json) :
  lookup "result" fields = Some res ->
  res <> JNull ->
  id_of res = undefined ->
  handleResponse p (Some (JObj fields)) =
    ([Dispatch (displayMessage "success"
                  (Some (JStr (if editMode p
                               then "Ad Group Updated Successfully"
                               else "Ad Group Created Successfully"))));
      Dispatch formSaved;
      PushState (Some JNull) "/adgroups/undefined"],
     Returned tt).
Proof.
  intros Hres Hnull Hid.
  rewrite (handleResponse_with_result p fields res Hres Hnull), Hid.
  reflexivity.
Qed.

Lemma handleResponse_missing_id_witness :
  handleResponse (props_of create_mode empty_store)
                 (Some (JObj [("result", JObj [("name", JStr "Spring")])])) =
    ([Dispatch (displayMessage "success" (Some (JStr "Ad Group Created Successfully")));
      Dispatch formSaved;
      PushState (Some JNull) "/adgroups/undefined"],
     Returned tt).
Proof.
  exact (handleResponse_missing_id (props_of create_mode empty_store)
           [("result", JObj [("name", JStr "Spring")])]
           (JObj [("name", JStr "Spring")])
           eq_refl ltac:(discriminate) eq_refl).
Defined.

(** X2. A [result] that is [null] passes the [=== undefined] test: the
    success notification and [formSaved] are dispatched, then reading
    [response.result.id] throws, and [history.pushState] is never
    reached. *)
Theorem handleResponse_null_result_throws (p : Props) (fields : object) :
  lookup "result" fields = Some JNull ->
  handleResponse p (Some (JObj fields)) =
    ([Dispatch (displayMessage "success"
                  (Some (JStr (if editMode p
                               then "Ad Group Updated Successfully"
                               else "Ad Group Created Successfully"))));
      Dispatch formSaved],
     Thrown TypeError).
Proof.
  intros Hres.
  unfold handleResponse. simpl get_prop. unfold bind at 1. simpl ret.
  rewrite Hres. simpl is_undefined. cbv iota.
  destruct (editMode p); reflexivity.
Qed.

Lemma handleResponse_null_result_throws_witness :
  handleResponse (props_of edit_mode stored_adgroup)
                 (Some (JObj [("result", JNull); ("message", JStr "gone")])) =
    ([Dispatch (displayMessage "success" (Some (JStr "Ad Group Updated Successfully")));
      Dispatch formSaved],
     Thrown TypeError).
Proof.
  exact (handleResponse_null_result_throws (props_of edit_mode stored_adgroup)
           [("result", JNull); ("message", JStr "gone")] eq_refl).
Defined.

(** ** What each handler can and cannot do *)

(** X4. Only a response navigates: whenever a handler calls
    [history.pushState], the event is a response object whose [result] is
    neither [undefined] nor [null], and the one path pushed is
    ['/adgroups/' + result.id]. *)
Theorem navigation_only_from_result (c : Config) (s : Store) (ev : event) :
  navigations (trace (handler c s ev)) <> [] ->
  exists (fields : object) (res : json),
    ev = Response (Some (JObj fields))
    /\ lookup "result" fields = Some res
    /\ res <> JNull
    /\ navigations (trace (handler c s ev))
       = ["/adgroups/" ++ to_string (id_of res)].
Proof.
  destruct ev as [| | d e | d | r | | prev | [|]]; cbn [handler].
  - unfold componentWillMount. destruct (is_undefined _); intros H; now contradiction H.
  - rewrite handleChange_trace. destruct (strict_eq _ _); intros H; now contradiction H.
  - rewrite handleSwitch_trace.
    destruct (strict_eq (App.formChanged _) _); intros H; now contradiction H.
  - destruct (validate d) eqn:Hv.
    + rewrite (handleFormSubmit_valid _ d Hv). intros H; now contradiction H.
    + rewrite (handleFormSubmit_rejected _ d Hv). intros H; now contradiction H.
  - rewrite handleResponse_navigations.
    destruct r as [[| b | n | str | items | fields]|];
      try (intros H; now contradiction H).
    destruct (lookup "result" fields) as [res|] eqn:Hres;
      [|intros H; now contradiction H].
    intros H. exists fields, res. split; [reflexivity|]. split; [exact Hres|].
    destruct res; try (split; [discriminate | reflexivity]).
    now contradiction H.
  - intros H; now contradiction H.
  - unfold componentDidUpdate. destruct (_ || _); intros H; now contradiction H.
  - cbn [select2_change]. rewrite handleChange_trace.
    destruct (strict_eq _ _); intros H; now contradiction H.
  - intros H; now contradiction H.
Qed.

Lemma navigation_only_from_result_witness :
  exists (fields : object) (res : json),
    Response (success_response 42) = Response (Some (JObj fields))
    /\ lookup "result" fields = Some res
    /\ res <> JNull
    /\ navigations (trace (handler edit_mode stored_adgroup
                                   (Response (success_response 42))))
       = ["/adgroups/" ++ to_string (id_of res)].
Proof.
  exact (navigation_only_from_result edit_mode stored_adgroup
           (Response (success_response 42)) ltac:(discriminate)).
Defined.

(** X5. Only a submit whose form validates reaches the network: whenever
    a handler dispatches [createAdGroup] or [updateAdGroup], the event is a
    click on Save and parsley accepted the form. *)
Theorem network_only_from_valid_submit (c : Config) (s : Store) (ev : event) :
  network_ops (trace (handler c s ev)) <> [] ->
  exists d : Dom, ev = Submit d /\ validate d = true.
Proof.
  unfold network_ops. rewrite handler_dispatched.
  destruct ev as [| | d e | d | r | | prev | [|]];
    try (intros H; now contradiction H).
  - destruct (is_undefined _); intros H; now contradiction H.
  - destruct (strict_eq _ _); intros H; now contradiction H.
  - destruct (strict_eq (store_formChanged s) _); intros H; now contradiction H.
  - rewrite handleFormSubmit_dispatched. destruct (validate d) eqn:Hv.
    + intros _. now exists d.
    + intros H; now contradiction H.
  - rewrite handleResponse_dispatched.
    destruct r as [[| b | n | str | items | fields]|];
      try (intros H; now contradiction H).
    destruct (is_undefined _); intros H; now contradiction H.
  - destruct (strict_eq _ _); intros H; now contradiction H.
Qed.

Lemma network_only_from_valid_submit_witness :
  exists d : Dom, Submit (valid_page false) = Submit d /\ validate d = true.
Proof.
  exact (network_only_from_valid_submit create_mode empty_store
           (Submit (valid_page false)) ltac:(discriminate)).
Defined.

(** X6. The path pushed after a save determines the numeric id: two
    responses whose results carry the ids [n] and [m], integers a
    JavaScript number holds exactly, lead to the same path only when
    [n = m]. *)
Theorem navigation_path_determines_id
  (p p' : Props) (fields fields' res res' : object) (n m : Z) :
  (Z.abs n <= MAX_SAFE_INTEGER)%Z ->
  (Z.abs m <= MAX_SAFE_INTEGER)%Z ->
  lookup "result" fields = Some (JObj res) ->
  lookup "result" fields' = Some (JObj res') ->
  lookup "id" res = Some (JNum n) ->
  lookup "id" res' = Some (JNum m) ->
  navigations (trace (handleResponse p (Some (JObj fields))))
  = navigations (trace (handleResponse p' (Some (JObj fields')))) ->
  n = m.
Proof.
  intros _ _ Hres Hres' Hid Hid'.
  rewrite !handleResponse_navigations, Hres, Hres'. cbn [id_of].
  rewrite Hid, Hid'. cbn [to_string json_to_string].
  intros H. injection H as H.
  now apply string_of_Z_inj.
Qed.

Lemma navigation_path_determines_id_witness : 42%Z = 42%Z.
Proof.
  exact (navigation_path_determines_id
           (props_of edit_mode stored_adgroup) (props_of create_mode empty_store)
           [("result", JObj [("id", JNum 42)])]
           [("result", JObj [("id", JNum 42); ("name", JStr "Spring")])]
           [("id", JNum 42)] [("id", JNum 42); ("name", JStr "Spring")]
           42%Z 42%Z ltac:(vm_compute; discriminate) ltac:(vm_compute; discriminate)
           eq_refl eq_refl eq_refl eq_refl eq_refl).
Defined.

(** ** The keys of the payload *)

Lemma lookup_undefined_iff (k : string) (o : object) :
  lookup k o = undefined <-> ~ In k (keys o).
Proof.
  induction o as [|[k' v] rest IH]; simpl.
  - split; [intros _ [] | reflexivity].
  - destruct (String.eqb_spec k k') as [->|Hne].
    + split; [discriminate | intros H; exfalso; apply H; now left].
    + rewrite IH. split.
      * intros Hn [Heq | Hin]; [now apply Hne | now apply Hn].
      * intros Hn Hin. apply Hn. now right.
Qed.

Lemma keys_assign (k : string) (v : json) (o : object) :
  keys (assign k v o) =
    if is_undefined (lookup k o) then (keys o ++ [k])%list else keys o.
Proof.
  induction o as [|[k' v'] rest IH]; simpl; [reflexivity|].
  destruct (String.eqb k k'); simpl; [reflexivity|].
  rewrite IH. now destruct (is_undefined (lookup k rest)).
Qed.

(** X7. Forcing the [type] keeps the keys of the serialized form, in their
    order: when [type] was serialized its value is replaced in place, when
    it was not, [type] is added as the last key. Nothing is dropped, and a
    form without repeated keys gives a payload without repeated keys. *)
Theorem force_type_keys (formData : object) :
  keys (force_type formData) =
    (if is_undefined (lookup "type" formData)
     then (keys formData ++ ["type"])%list
     else keys formData)
  /\ (NoDup (keys formData) -> NoDup (keys (force_type formData))).
Proof.
  assert (E : keys (force_type formData) =
    (if is_undefined (lookup "type" formData)
     then (keys formData ++ ["type"])%list
     else keys formData)).
  { unfold force_type.
    destruct (is_undefined (lookup "type" formData)) eqn:Hu;
      rewrite keys_assign, Hu; reflexivity. }
  split; [exact E|].
  intros Hnd. rewrite E.
  destruct (lookup "type" formData) as [v|] eqn:Ht; simpl; [exact Hnd|].
  apply lookup_undefined_iff in Ht.
  apply NoDup_app; [exact Hnd | repeat constructor; intros [] |].
  intros k Hin [<- | []]. now apply Ht.
Qed.

Lemma force_type_keys_witness :
  NoDup (keys (force_type (serializeJSON (valid_page false)))).
Proof.
  apply (proj2 (force_type_keys (serializeJSON (valid_page false)))).
  repeat constructor; simpl; intuition discriminate.
Defined.

(** ** render and the details *)

(** X8. [render] fills in [campaign_id] and nothing else: a [campaign_id]
    the details already hold is never overwritten, a missing one is taken
    from [params.campaignId], every other field reads as before, the hidden
    input carries the resulting value, and rendering the result again
    changes nothing. *)
Theorem render_campaign_id (p : Props) :
  let details := AdGroup.details (props_AdGroup p) in
  let data := fst (render p) in
  lookup "campaign_id" data =
    (if is_undefined (lookup "campaign_id" details)
     then params_campaignId p
     else lookup "campaign_id" details)
  /\ (lookup "campaign_id" details <> undefined -> data = details)
  /\ (forall k : string, k <> "campaign_id" -> lookup k data = lookup k details)
  /\ campaign_id_input (snd (render p)) = lookup "campaign_id" data
  /\ fst (render (with_details data p)) = data.
Proof.
  intros details data. subst data. unfold render. cbn [fst snd campaign_id_input].
  unfold render_data.
  cbn [with_details props_AdGroup AdGroup.details params_campaignId].
  fold details.
  destruct (lookup "campaign_id" details) as [v|] eqn:Hc; cbn [is_undefined].
  - rewrite Hc. cbn [is_undefined]. repeat split; auto.
  - destruct (params_campaignId p) as [cid|] eqn:Hp.
    + rewrite lookup_assign_same. cbn [is_undefined]. repeat split.
      * intros H. now contradiction H.
      * intros k Hk. now apply lookup_assign_other.
    + rewrite Hc. cbn [is_undefined]. repeat split; auto.
Qed.

Lemma render_campaign_id_witness :
  fst (render (props_of edit_mode stored_adgroup)) = store_details stored_adgroup.
Proof.
  exact (proj1 (proj2 (render_campaign_id (props_of edit_mode stored_adgroup)))
           ltac:(discriminate)).
Defined.

Lemma strict_eq_str (v : value) (a : string) :
  strict_eq v (JStr a) = true <-> v = Some (JStr a).
Proof.
  split.
  - destruct v as [[| b | n | str | items | fields]|]; simpl; intro H;
      try discriminate H.
    apply String.eqb_eq in H. now subst.
  - intros ->. simpl. apply String.eqb_refl.
Qed.

(** X9. The controls [render] derives from [type] agree with each other.
    When the category select is disabled it is also hidden, the toggle
    starts checked and the description is not rendered; when the
    description is rendered the toggle starts unchecked and the category
    select is visible and enabled. The budget section exists exactly in
    create mode, and is then hidden and disabled exactly when the category
    select is. Wherever the description or the channel and locale selects
    are rendered, the Audience header is rendered too. *)
Theorem render_type_consistency (p : Props) :
  let view := snd (render p) in
  (categories_disabled view = true ->
   categories_className view = "hide"
   /\ type_defaultChecked view = true
   /\ explanation_shown view = false)
  /\ (explanation_shown view = true ->
      categories_className view = ""
      /\ categories_disabled view = false
      /\ type_defaultChecked view = false)
  /\ (budget view = None <-> editMode p = true)
  /\ (forall b : BudgetView,
        budget view = Some b ->
        budget_className b = categories_className view
        /\ frequency_cap_daily_disabled b = categories_disabled view
        /\ frequency_cap_total_disabled b = categories_disabled view)
  /\ (explanation_shown view = true \/ channel_and_locale_shown view = true ->
      audience_header_shown view = true).
Proof.
  intros view. subst view. unfold render.
  cbn [snd categories_disabled categories_className type_defaultChecked
       explanation_shown budget audience_header_shown channel_and_locale_shown].
  set (type := lookup "type" (render_data p)).
  split; [|split; [|split; [|split]]]; cycle 4.
  { intros [-> | ->]; [reflexivity | apply orb_true_r]. }
  - intros Hd. apply strict_eq_str in Hd. rewrite Hd. now split.
  - intros Hs. apply strict_eq_str in Hs. rewrite Hs. now split.
  - destruct (editMode p); simpl; split; intros H;
      try reflexivity; discriminate H.
  - intros b. destruct (editMode p); simpl; intros H; [discriminate H|].
    injection H as <-. now split.
Qed.

Lemma render_type_consistency_witness :
  categories_className (snd (render (props_of create_mode stored_adgroup))) = "hide"
  /\ type_defaultChecked (snd (render (props_of create_mode stored_adgroup))) = true
  /\ explanation_shown (snd (render (props_of create_mode stored_adgroup))) = false.
Proof.
  exact (proj1 (render_type_consistency (props_of create_mode stored_adgroup))
           eq_refl).
Defined.

(** A [type] outside the enum shows how far the agreement goes: the toggle
    starts checked, yet the category select stays visible and enabled. *)
Example render_foreign_type :
  let view := snd (render (with_details [("type", JNull)]
                                        (props_of create_mode empty_store))) in
  type_defaultChecked view = true
  /\ categories_disabled view = false
  /\ explanation_shown view = false.
Proof. repeat split. Qed.



(** X11. The key tells forms apart: an edit form and a create form never
    share a key, and two edit forms over details whose ids are integers a
    JavaScript number holds exactly share one only when the ids are
    equal. *)
Theorem form_key_separates (p p' : Props) :
  (editMode p = true -> editMode p' = false ->
   form_key (snd (render p)) <> form_key (snd (render p')))
  /\ (forall n m : Z,
        (Z.abs n <= MAX_SAFE_INTEGER)%Z ->
        (Z.abs m <= MAX_SAFE_INTEGER)%Z ->
        editMode p = true -> editMode p' = true ->
        lookup "id" (AdGroup.details (props_AdGroup p)) = Some (JNum n) ->
        lookup "id" (AdGroup.details (props_AdGroup p')) = Some (JNum m) ->
        form_key (snd (render p)) = form_key (snd (render p')) ->
        n = m).
Proof.
  assert (Hid : forall q, lookup "id" (render_data q)
                          = lookup "id" (AdGroup.details (props_AdGroup q))).
  { intros q. unfold render_data.
    destruct (is_undefined _); [|reflexivity].
    destruct (params_campaignId q); [|reflexivity].
    now apply lookup_assign_other. }
  unfold render. cbn [snd form_key]. split.
  - intros -> ->. simpl. intros H. discriminate H.
  - intros n m _ _ -> -> Hn Hm. rewrite !Hid, Hn, Hm.
    cbn [to_string json_to_string]. intros H.
    apply string_of_Z_inj.
    exact (append_inj_l "edit-" _ _ (append_inj_l "adgroupform-" _ _ H)).
Qed.

Lemma form_key_separates_witness :
  String.eqb (form_key (snd (render (props_of edit_mode stored_adgroup))))
             (form_key (snd (render (props_of create_mode stored_adgroup))))
  = false.
Proof.
  apply String.eqb_neq.
  exact (proj1 (form_key_separates (props_of edit_mode stored_adgroup)
                                   (props_of create_mode stored_adgroup))
           eq_refl eq_refl).
Defined.

(** ** The option lists *)

Lemma index_to_string_inj (i j : nat) :
  index_to_string i = index_to_string j -> i = j.
Proof.
  unfold index_to_string. intros H.
  now apply Nat2Z.inj, string_of_Z_inj.
Qed.

Lemma map_index_values {A B C : Type} (f : A -> nat -> B) (g : B -> C) (h : A -> C)
  (Hf : forall row j, g (f row j) = h row) (l : list A) (i : nat) :
  map g (map_index f i l) = map h l.
Proof.
  revert i. induction l as [|row rest IH]; intro i; simpl; [reflexivity|].
  now rewrite Hf, IH.
Qed.

Lemma map_index_keys {A : Type} (f : A -> nat -> OptionView) (prefix : string)
  (Hf : forall row j, option_key (f row j) = Some (prefix ++ index_to_string j))
  (l : list A) (i : nat) :
  map option_key (map_index f i l)
  = map (fun j => Some (prefix ++ index_to_string j)) (seq i (length l)).
Proof.
  revert i. induction l as [|row rest IH]; intro i; simpl; [reflexivity|].
  now rewrite Hf, IH.
Qed.

Lemma map_index_keys_NoDup {A : Type} (f : A -> nat -> OptionView) (prefix : string)
  (Hf : forall row j, option_key (f row j) = Some (prefix ++ index_to_string j))
  (l : list A) (i : nat) :
  NoDup (map option_key (map_index f i l)).
Proof.
  rewrite (map_index_keys f prefix Hf).
  apply Injective_map_NoDup; [|apply seq_NoDup].
  intros a b H. injection H as H.
  now apply index_to_string_inj, (append_inj_l prefix).
Qed.

(** X12. Each select gets one option per item of its reference list, in
    the list's order and carrying the item as its value (the row's [id] for
    a channel), the locale select with one blank option in front; and within
    each select the React keys are pairwise distinct, however long the
    list. *)
Theorem option_lists (capitalize : value -> string) (init : Init.state) :
  map option_value (category_options init) = map Some (Init.categories init)
  /\ map option_value (channel_options capitalize init)
     = map (lookup "id") (Init.channels init)
  /\ map option_value (locale_options init)
     = undefined :: map Some (Init.locales init)
  /\ NoDup (map option_key (category_options init))
  /\ NoDup (map option_key (channel_options capitalize init))
  /\ NoDup (map option_key (locale_options init)).
Proof.
  unfold category_options, channel_options, locale_options.
  split; [now apply map_index_values|].
  split; [now apply map_index_values|].
  split; [cbn [map blank_option option_value]; f_equal; now apply map_index_values|].
  split; [now apply (map_index_keys_NoDup _ "categories-")|].
  split; [now apply (map_index_keys_NoDup _ "channel-")|].
  cbn [map blank_option option_key]. constructor.
  - rewrite (map_index_keys _ "locales-") by reflexivity.
    rewrite in_map_iff. intros (j & Hj & _). discriminate Hj.
  - now apply (map_index_keys_NoDup _ "locales-").
Qed.

Example option_lists_sample :
  map option_key
    (locale_options {| Init.categories := []; Init.channels := [];
                       Init.locales := [JStr "en-US"; JStr "de-DE"] |})
  = [None; Some "locales-0"; Some "locales-1"].
Proof. reflexivity. Qed.
